(** * weather-backend: the Express relay of [server.js]

    A shallow embedding of the two route handlers of [server.js]
    ([GET /api/weather] and [GET /health]) together with the fragment of
    JavaScript they rely on: JSON values, truthiness, member access that
    throws on [undefined] and [null], the string conversion of a template
    literal, which throws on some objects, [try]/[catch], and the two effects of a handler, namely writing to the
    Express response object and calling the provider through [fetch]. *)

From Stdlib Require Import String Ascii List ZArith Bool Lia.
From Stdlib Require Import Floats.SpecFloat.
From Stdlib Require Import DecimalString.
Import ListNotations.
Open Scope string_scope.
Open Scope Z_scope.

Set Warnings "-register-all".

(** ** JavaScript values *)

Module JS.

(** The values [response.json()] can resolve to, plus [undefined], which
    member access produces.  Numbers are IEEE doubles, kept in the Standard
    Library's specification format.  An object is the list of its own
    properties in insertion order. *)
Inductive value : Type :=
| VUndefined
| VNull
| VBool (b : bool)
| VNum (x : spec_float)
| VStr (s : string)
| VArr (items : list value)
| VObj (props : list (string * value)).

Inductive js_error : Type :=
| TypeError      (* member access on undefined or null *)
| FetchError     (* fetch(url) rejected *)
| SyntaxError.   (* response.json() rejected *)

(** The outcome of evaluating an expression. *)
Inductive completion (A : Type) : Type :=
| Normal (a : A)
| Throw (e : js_error).
Arguments Normal {A} a.
Arguments Throw {A} e.

(** Sequencing of evaluations: the first one that throws ends the lot. *)
Definition and_then {A B} (c : completion A) (k : A -> completion B) : completion B :=
  match c with
  | Normal a => k a
  | Throw e => Throw e
  end.

(** ToBoolean. *)
Definition truthy (v : value) : bool :=
  match v with
  | VUndefined | VNull => false
  | VBool b => b
  | VNum (S754_zero _) | VNum S754_nan => false
  | VNum _ => true
  | VStr s => negb (s =? "")%string
  | VArr _ | VObj _ => true
  end.

(** [a || b] on already evaluated operands. *)
Definition or_else (a b : value) : value := if truthy a then a else b.

Fixpoint own_property (props : list (string * value)) (k : string) : option value :=
  match props with
  | [] => None
  | (k', v) :: rest => if (k' =? k)%string then Some v else own_property rest k
  end.

(** [v.k] for the property names that occur in [server.js] ([name], [sys],
    [country], [main], [temp], [feels_like], [humidity], [weather],
    [description], [icon], [message]); no built-in prototype defines any of
    them, so on a primitive or an array the access yields [undefined]. *)
Definition get_field (v : value) (k : string) : completion value :=
  match v with
  | VUndefined | VNull => Throw TypeError
  | VObj props =>
      match own_property props k with
      | Some x => Normal x
      | None => Normal VUndefined
      end
  | VBool _ | VNum _ | VStr _ | VArr _ => Normal VUndefined
  end.

Definition index_key (n : nat) : string := NilEmpty.string_of_uint (Nat.to_uint n).

(** [v[n]] for a non-negative integer literal [n]. *)
Definition get_index (v : value) (n : nat) : completion value :=
  match v with
  | VUndefined | VNull => Throw TypeError
  | VArr items =>
      match nth_error items n with
      | Some x => Normal x
      | None => Normal VUndefined
      end
  | VStr s =>
      match String.get n s with
      | Some c => Normal (VStr (String c EmptyString))
      | None => Normal VUndefined
      end
  | VObj props =>
      match own_property props (index_key n) with
      | Some x => Normal x
      | None => Normal VUndefined
      end
  | VBool _ | VNum _ => Normal VUndefined
  end.

End JS.
Import JS.

Notation "'let*' x ':=' c 'in' k" := (and_then c (fun x => k))
  (at level 10, x name, c at level 100, k at level 200).

(** ** The request and the provider *)

(** What [req.query.city] can hold when it is present: a string, or, for a
    repeated or bracketed parameter, an array or an object. *)
Inductive qvalue : Type :=
| QStr (s : string)
| QArr (items : list qvalue)
| QObj (props : list (string * qvalue)).

(** [k] is an own property of the object. *)
Definition has_own (props : list (string * qvalue)) (k : string) : bool :=
  existsb (fun p => (fst p =? k)%string) props.

(** ToString as a template literal applies it.  A string is itself.  An
    array is joined with commas, each element converted in turn.  For an
    object the conversion calls its [toString]: the inherited one answers
    "[object Object]"; an own property of that name hides it, and since a
    query value is never a function (and [valueOf] does not yield a
    primitive either) the conversion then throws a TypeError. *)
Fixpoint q_to_string (q : qvalue) : completion string :=
  match q with
  | QStr s => Normal s
  | QArr items =>
      (fix join (l : list qvalue) : completion string :=
         match l with
         | [] => Normal ""
         | x :: rest =>
             let* first := q_to_string x in
             match rest with
             | [] => Normal first
             | _ :: _ => let* others := join rest in Normal (first ++ "," ++ others)
             end
         end) items
  | QObj props =>
      if has_own props "toString" then Throw TypeError
      else Normal "[object Object]"
  end.

(** [req.query.city]; [None] is [undefined]. *)
Definition city_param := option qvalue.

Definition city_truthy (city : city_param) : bool :=
  match city with
  | None => false
  | Some (QStr s) => negb (s =? "")%string
  | Some (QArr _) | Some (QObj _) => true
  end.

(** [${city}]. *)
Definition city_to_string (city : city_param) : completion string :=
  match city with
  | None => Normal "undefined"
  | Some q => q_to_string q
  end.

(** [process.env.OPENWEATHER_API_KEY]; [None] is [undefined]. *)
Definition env_var := option string.

Definition env_truthy (k : env_var) : bool :=
  match k with
  | None => false
  | Some s => negb (s =? "")%string
  end.

Definition env_to_string (k : env_var) : string :=
  match k with
  | None => "undefined"
  | Some s => s
  end.

(** A node-fetch [Response], as far as the handler looks at it: the status,
    and what [response.json()] settles to ([None]: it rejects, the body is
    not JSON). *)
Record fetch_response : Type := mkResponse {
  status : Z;
  json_body : option value
}.

(** [response.ok]. *)
Definition ok (r : fetch_response) : bool :=
  (200 <=? status r) && (status r <? 300).

Inductive fetch_outcome : Type :=
| Rejects
| Resolves (r : fetch_response).

(** ** The handler monad: the Express response, the outbound calls, and
    exceptions *)

Inductive payload : Type :=
| Json (v : value)      (* res.json(v) *)
| Text (s : string).    (* res.send(s) *)

(** [statusCode] is [res.statusCode]; [sent] lists the responses written,
    oldest first, each with the status it went out with; [outbound] lists
    the URLs passed to [fetch], oldest first. *)
Record world : Type := mkWorld {
  statusCode : Z;
  sent : list (Z * payload);
  outbound : list string
}.

(** A fresh request: Express starts [res.statusCode] at 200. *)
Definition fresh : world := mkWorld 200 [] [].

Definition M (A : Type) : Type := world -> completion A * world.

Definition ret {A} (a : A) : M A := fun w => (Normal a, w).

Definition bind {A B} (m : M A) (f : A -> M B) : M B :=
  fun w =>
    match m w with
    | (Normal a, w') => f a w'
    | (Throw e, w') => (Throw e, w')
    end.

Declare Scope js_scope.
Delimit Scope js_scope with js.
Notation "x <- m ;; k" := (bind m (fun x => k))
  (at level 100, m at next level, right associativity) : js_scope.
Notation "m ;; k" := (bind m (fun _ => k))
  (at level 100, right associativity) : js_scope.
Open Scope js_scope.

Definition eval {A} (c : completion A) : M A := fun w => (c, w).

(** [try { body } catch (error) { handler }]: what [body] did before it
    threw stays done. *)
Definition try_catch {A} (body : M A) (handler : js_error -> M A) : M A :=
  fun w =>
    match body w with
    | (Normal a, w') => (Normal a, w')
    | (Throw e, w') => handler e w'
    end.

(** [res.status(code)]. *)
Definition res_status (code : Z) : M unit :=
  fun w => (Normal tt, mkWorld code (sent w) (outbound w)).

(** [res.json(v)]. *)
Definition res_json (v : value) : M unit :=
  fun w => (Normal tt,
            mkWorld (statusCode w) (sent w ++ [(statusCode w, Json v)]) (outbound w)).

(** [res.send(s)]. *)
Definition res_send (s : string) : M unit :=
  fun w => (Normal tt,
            mkWorld (statusCode w) (sent w ++ [(statusCode w, Text s)]) (outbound w)).

(** [await response.json()]. *)
Definition response_json (r : fetch_response) : M value :=
  match json_body r with
  | Some data => ret data
  | None => eval (Throw SyntaxError)
  end.

(** ** server.js *)

Section Server.

(** [const OPENWEATHER_API_KEY = process.env.OPENWEATHER_API_KEY]. *)
Variable OPENWEATHER_API_KEY : env_var.

(** The provider behind [fetch]: what a call with a given URL settles to. *)
Variable provider : string -> fetch_outcome.

(** [await fetch(url)]: the call is recorded, then it resolves or rejects. *)
Definition fetch (url : string) : M fetch_response :=
  fun w =>
    let w' := mkWorld (statusCode w) (sent w) (outbound w ++ [url]) in
    match provider url with
    | Resolves r => (Normal r, w')
    | Rejects => (Throw FetchError, w')
    end.

(** The template literal of line 48. *)
Definition openWeatherMapUrl (city : city_param) : completion string :=
  let* q := city_to_string city in
  Normal ("https://api.openweathermap.org/data/2.5/weather?q=" ++ q
          ++ "&appid=" ++ env_to_string OPENWEATHER_API_KEY ++ "&units=metric").

(** The object literal of lines 67-75; the property values are evaluated in
    source order, each one afresh from [data]. *)
Definition weatherInfo (data : value) : completion value :=
  let* city := get_field data "name" in
  let* sys := get_field data "sys" in
  let* country := get_field sys "country" in
  let* main1 := get_field data "main" in
  let* temperature := get_field main1 "temp" in
  let* main2 := get_field data "main" in
  let* feelsLike := get_field main2 "feels_like" in
  let* weather1 := get_field data "weather" in
  let* first1 := get_index weather1 0 in
  let* description := get_field first1 "description" in
  let* weather2 := get_field data "weather" in
  let* first2 := get_index weather2 0 in
  let* icon := get_field first2 "icon" in
  let* main3 := get_field data "main" in
  let* humidity := get_field main3 "humidity" in
  Normal (VObj [("city", city); ("country", country);
                ("temperature", temperature); ("feelsLike", feelsLike);
                ("description", description); ("icon", icon);
                ("humidity", humidity)]).

(** [app.get('/api/weather', async (req, res) => ...)], with [city] standing
    for [req.query.city].  A [return] ends the handler, so what follows it in
    the source is the [else] branch here.  What the [console] calls write is
    left out here, but their arguments are evaluated where that can throw:
    the template literal of line 35, which converts [city] before either
    guard and outside the [try], and [data.message] on line 61.  The
    template literal of line 48 is outside the [try] as well. *)
Definition weather_handler (city : city_param) : M unit :=
  shown <- eval (city_to_string city) ;;
  if negb (city_truthy city) then
    res_status 400 ;;
    res_json (VObj [("error", VStr "City parameter is required.")])
  else if negb (env_truthy OPENWEATHER_API_KEY) then
    res_status 500 ;;
    res_json (VObj [("error", VStr "Server is not configured with the API key.")])
  else
    url <- eval (openWeatherMapUrl city) ;;
    try_catch
      (response <- fetch url ;;
       data <- response_json response ;;
       if negb (ok response) then
         logged <- eval (get_field data "message") ;;
         message <- eval (get_field data "message") ;;
         res_status (status response) ;;
         res_json (VObj [("error",
           or_else message (VStr "Error fetching weather data from external API"))])
       else
         info <- eval (weatherInfo data) ;;
         res_json info)
      (fun error =>
         res_status 500 ;;
         res_json (VObj [("error", VStr "Failed to fetch weather data.")])).

(** [app.get('/health', (req, res) => ...)]. *)
Definition health_handler : M unit :=
  res_status 200 ;;
  res_send "Backend is healthy!".

(** The two routes registered on [app]. *)
Inductive route : Type :=
| ApiWeather    (* GET /api/weather *)
| Health.       (* GET /health *)

(** One request, from a fresh response object. *)
Definition serve (r : route) (city : city_param) : completion unit * world :=
  match r with
  | ApiWeather => weather_handler city fresh
  | Health => health_handler fresh
  end.

End Server.

(** ** Vocabulary of the statements *)

(** The body [{ error: msg }]. *)
Definition error_body (msg : string) : payload :=
  Json (VObj [("error", VStr msg)]).

(** A [WeatherSummary] with its seven fields in the order of the source. *)
Definition summary (city country temperature feelsLike description icon humidity : value)
  : value :=
  VObj [("city", city); ("country", country);
        ("temperature", temperature); ("feelsLike", feelsLike);
        ("description", description); ("icon", icon);
        ("humidity", humidity)].

(** [v] is an object and [k] is one of its properties. *)
Definition field (v : value) (k : string) : option value :=
  match v with
  | VObj props => own_property props k
  | _ => None
  end.

(** A provider body that holds the seven values the summary is made of,
    where the provider documents them: [name], [sys.country], [main.temp],
    [main.feels_like], [main.humidity], and a non-empty [weather] list whose
    first entry carries [description] and [icon]. *)
Record well_formed (data name country temp feels_like description icon humidity : value)
  : Prop := mkWellFormed {
  wf_name : field data "name" = Some name;
  wf_country : exists sys,
    field data "sys" = Some sys /\ field sys "country" = Some country;
  wf_main : exists main,
    field data "main" = Some main /\ field main "temp" = Some temp /\
    field main "feels_like" = Some feels_like /\ field main "humidity" = Some humidity;
  wf_weather : exists first rest,
    field data "weather" = Some (VArr (first :: rest)) /\
    field first "description" = Some description /\ field first "icon" = Some icon
}.

(** The three fixed messages and the fallback of the source. *)
Definition msg_city_required : string := "City parameter is required.".
Definition msg_not_configured : string := "Server is not configured with the API key.".
Definition msg_external : string := "Error fetching weather data from external API".
Definition msg_failed : string := "Failed to fetch weather data.".

(** The reply to a transport failure. *)
Definition failed_reply (url : string) : completion unit * world :=
  (Normal tt, mkWorld 500 [(500, error_body msg_failed)] [url]).

(** A summary none of whose seven fields is missing. *)
Definition complete_summary (v : value) : bool :=
  match v with
  | VObj [(k1, c); (k2, co); (k3, t); (k4, f); (k5, d); (k6, i); (k7, h)] =>
      (k1 =? "city")%string && (k2 =? "country")%string &&
      (k3 =? "temperature")%string && (k4 =? "feelsLike")%string &&
      (k5 =? "description")%string && (k6 =? "icon")%string &&
      (k7 =? "humidity")%string &&
      forallb (fun x => match x with VUndefined => false | _ => true end)
              [c; co; t; f; d; i; h]
  | _ => false
  end.

(** A body of the shape [{ error: string }]. *)
Definition error_string_body (v : value) : bool :=
  match v with
  | VObj [(k, VStr _)] => (k =? "error")%string
  | _ => false
  end.

(** The two shapes a reply may have: a complete summary under status 200,
    or [{ error: string }] under a status outside 2xx. *)
Definition summary_or_error (reply : Z * payload) : bool :=
  match reply with
  | (st, Json v) =>
      ((st =? 200) && complete_summary v)
      || (negb ((200 <=? st) && (st <? 300)) && error_string_body v)
  | (_, Text _) => false
  end.

(** ** Sample data *)

Definition london : value :=
  VObj [("name", VStr "London");
        ("sys", VObj [("country", VStr "GB")]);
        ("main", VObj [("temp", VNum (S754_finite false 25 (-1)));
                       ("feels_like", VNum (S754_finite false 23 (-1)));
                       ("humidity", VNum (S754_finite false 81 0))]);
        ("weather", VArr [VObj [("description", VStr "light rain");
                                ("icon", VStr "10d")]])].

(** A 2xx body with the right skeleton and no leaves. *)
Definition hollow : value :=
  VObj [("name", VStr "Nowhere");
        ("sys", VObj []);
        ("main", VObj []);
        ("weather", VArr [VObj []])].

Definition stub (st : Z) (body : option value) : string -> fetch_outcome :=
  fun _ => Resolves (mkResponse st body).

Definition unreachable : string -> fetch_outcome := fun _ => Rejects.

(** What [?city[toString]=x] parses to under Express 4. *)
Definition unprintable : city_param := Some (QObj [("toString", QStr "x")]).

(** ** The console *)

Close Scope js_scope.

(** [console.log], [console.warn], [console.error]. *)
Inductive level : Type :=
| LogLevel
| WarnLevel
| ErrorLevel.

(** An argument of a console call: a value, or the caught [error]. *)
Inductive console_arg : Type :=
| AVal (v : value)
| AErr (e : js_error).

(** One console call with its arguments in order. *)
Definition console_entry : Type := (level * list console_arg)%type.

Definition str (s : string) : console_arg := AVal (VStr s).

(** The effects of the handler together with the console, oldest entry
    first. *)
Record traced : Type := mkTraced {
  effects : world;
  console : list console_entry
}.

Definition L (A : Type) : Type := traced -> completion A * traced.

Definition lret {A} (a : A) : L A := fun t => (Normal a, t).

Definition lbind {A B} (m : L A) (f : A -> L B) : L B :=
  fun t =>
    match m t with
    | (Normal a, t') => f a t'
    | (Throw e, t') => (Throw e, t')
    end.

Declare Scope log_scope.
Delimit Scope log_scope with log.
Notation "x <- m ;; k" := (lbind m (fun x => k))
  (at level 100, m at next level, right associativity) : log_scope.
Notation "m ;; k" := (lbind m (fun _ => k))
  (at level 100, right associativity) : log_scope.
Open Scope log_scope.

(** An operation on the response and the provider leaves the console as it
    is. *)
Definition lift {A} (m : M A) : L A :=
  fun t =>
    match m (effects t) with
    | (c, w') => (c, mkTraced w' (console t))
    end.

Definition ltry_catch {A} (body : L A) (handler : js_error -> L A) : L A :=
  fun t =>
    match body t with
    | (Normal a, t') => (Normal a, t')
    | (Throw e, t') => handler e t'
    end.

Definition console_call (lv : level) (args : list console_arg) : L unit :=
  fun t => (Normal tt, mkTraced (effects t) (console t ++ [(lv, args)])).

(** [s.split(sep)[0]] for a non-empty [sep]: [s] up to the first occurrence
    of [sep], all of [s] when there is none. *)
Fixpoint split_head (s sep : string) : string :=
  if String.prefix sep s then ""
  else match s with
       | EmptyString => EmptyString
       | String c s' => String c (split_head s' sep)
       end.

(** ToString of an integer number, as [${response.status}] and [${PORT}]
    apply it. *)
Definition integer_to_string (z : Z) : string :=
  NilZero.string_of_int (Z.to_int z).

(** ** server.js with its console calls *)

Section LoggedServer.

Variable OPENWEATHER_API_KEY : env_var.
Variable provider : string -> fetch_outcome.

(** Lines 31-85 with every [console] call in place. *)
Definition weather_handler_logged (city : city_param) : L unit :=
  shown <- lift (eval (city_to_string city)) ;;
  console_call LogLevel [str ("Received request for city: " ++ shown)] ;;
  if negb (city_truthy city) then
    console_call LogLevel [str "Missing city parameter."] ;;
    lift (res_status 400) ;;
    lift (res_json (VObj [("error", VStr "City parameter is required.")]))
  else if negb (env_truthy OPENWEATHER_API_KEY) then
    console_call ErrorLevel [str "OPENWEATHER_API_KEY is missing during API call attempt."] ;;
    lift (res_status 500) ;;
    lift (res_json (VObj [("error", VStr "Server is not configured with the API key.")]))
  else
    url <- lift (eval (openWeatherMapUrl OPENWEATHER_API_KEY city)) ;;
    console_call LogLevel
      [str ("Fetching from external API: " ++ split_head url "&appid=" ++ "&appid=...")] ;;
    ltry_catch
      (response <- lift (fetch provider url) ;;
       data <- lift (response_json response) ;;
       console_call LogLevel
         [str ("External API response status: " ++ integer_to_string (status response))] ;;
       if negb (ok response) then
         logged <- lift (eval (get_field data "message")) ;;
         console_call ErrorLevel
           [str "External API error:"; AVal (or_else logged (VStr "Unknown error"))] ;;
         message <- lift (eval (get_field data "message")) ;;
         lift (res_status (status response)) ;;
         lift (res_json (VObj [("error",
           or_else message (VStr "Error fetching weather data from external API"))]))
       else
         info <- lift (eval (weatherInfo data)) ;;
         lift (res_json info))
      (fun error =>
         console_call ErrorLevel [str "Backend failed to fetch weather:"; AErr error] ;;
         lift (res_status 500) ;;
         lift (res_json (VObj [("error", VStr "Failed to fetch weather data.")]))).

(** One lookup, from a fresh response object and an empty console. *)
Definition serve_logged (city : city_param) : completion unit * traced :=
  weather_handler_logged city (mkTraced fresh []).

End LoggedServer.

(** ** Start-up *)

(** [process.env.PORT || 8080]: the variable's string, or the number. *)
Inductive port : Type :=
| PortStr (s : string)
| PortNum (n : Z).

Definition PORT (env_port : env_var) : port :=
  match env_port with
  | Some s => if (s =? "")%string then PortNum 8080 else PortStr s
  | None => PortNum 8080
  end.

Definition port_to_string (p : port) : string :=
  match p with
  | PortStr s => s
  | PortNum n => integer_to_string n
  end.

(** What loading [server.js] does besides registering the routes: the
    console entries written while the module loads (lines 14-21), the
    arguments of [app.listen] (line 93), and the entries its callback writes
    once the server listens (lines 94-96). *)
Record boot : Type := mkBoot {
  at_load : list console_entry;
  listen_port : port;
  listen_host : string;
  on_listening : list console_entry
}.

Definition key_check (key : env_var) : list console_entry :=
  if negb (env_truthy key) then
    [(ErrorLevel, [str "ERROR: OPENWEATHER_API_KEY is not set! Weather fetching will fail."]);
     (WarnLevel, [str "Please ensure you have created an OpenShift Secret and configured your Deployment to inject it."]);
     (WarnLevel, [str "For local testing, create a .env file with OPENWEATHER_API_KEY=YOUR_KEY_HERE"])]
  else
    [(LogLevel, [str "OpenWeatherMap API Key loaded (first 5 chars):";
                 str (substring 0 5 (env_to_string key) ++ "...")])].

Definition server_js (env_port key : env_var) : boot :=
  let port := PORT env_port in
  mkBoot
    ((LogLevel, [str "Backend starting..."]) :: key_check key)
    port
    "0.0.0.0"
    [(LogLevel, [str ("Backend server listening on port " ++ port_to_string port)]);
     (LogLevel, [str ("Access backend via: http://localhost:" ++ port_to_string port
                      ++ "/api/weather?city=London (for local testing)")])].

(** ** Further vocabulary *)

(** [undefined] or [null]: what member access throws on. *)
Definition nullish (v : value) : bool :=
  match v with
  | VUndefined | VNull => true
  | _ => false
  end.

(** [v.k] where it does not throw. *)
Definition member (v : value) (k : string) : value :=
  match get_field v k with
  | Normal x => x
  | Throw _ => VUndefined
  end.

(** [v[n]] where it does not throw. *)
Definition element (v : value) (n : nat) : value :=
  match get_index v n with
  | Normal x => x
  | Throw _ => VUndefined
  end.

(** The five containers the object literal of lines 67-75 reads through:
    [data], [data.sys], [data.main], [data.weather] and [data.weather[0]]. *)
Definition containers (data : value) : list value :=
  [data; member data "sys"; member data "main"; member data "weather";
   element (member data "weather") 0].

Definition is_error_entry (e : console_entry) : bool :=
  match fst e with
  | ErrorLevel => true
  | _ => false
  end.

(** The character [c] occurs in [s]. *)
Fixpoint occurs (c : Ascii.ascii) (s : string) : bool :=
  match s with
  | EmptyString => false
  | String c' s' => Ascii.eqb c c' || occurs c s'
  end.

Definition api_base : string := "https://api.openweathermap.org/data/2.5/weather?q=".

(** The console entries of a lookup, by the line that writes them. *)
Definition received (shown : string) : console_entry :=
  (LogLevel, [str ("Received request for city: " ++ shown)]).

Definition fetching (shown : string) : console_entry :=
  (LogLevel, [str ("Fetching from external API: " ++ shown ++ "&appid=...")]).

Definition status_line (st : Z) : console_entry :=
  (LogLevel, [str ("External API response status: " ++ integer_to_string st)]).

Definition external_error (message : value) : console_entry :=
  (ErrorLevel, [str "External API error:"; AVal (or_else message (VStr "Unknown error"))]).

Definition caught (e : js_error) : console_entry :=
  (ErrorLevel, [str "Backend failed to fetch weather:"; AErr e]).

(** The summary read off [data] path by path. *)
Definition summary_of (data : value) : value :=
  summary (member data "name")
          (member (member data "sys") "country")
          (member (member data "main") "temp")
          (member (member data "main") "feels_like")
          (member (element (member data "weather") 0) "description")
          (member (element (member data "weather") 0) "icon")
          (member (member data "main") "humidity").

(** None of the five containers is [undefined] or [null]. *)
Definition readable (data : value) : bool :=
  forallb (fun v => negb (nullish v)) (containers data).

(** The reply and the console of a lookup that ends in the [catch] block
    before any status line is written; [shown] is the city as converted and
    [url] the URL called. *)
Definition failure_trace (shown url : string) (e : js_error)
  : completion unit * traced :=
  (Normal tt,
   mkTraced
     (mkWorld 500 [(500, error_body msg_failed)] [url])
     [received shown; fetching (split_head url "&appid="); caught e]).

(** The URL of line 48 for a city that converted to [shown]. *)
Definition lookup_url (key : env_var) (shown : string) : string :=
  api_base ++ shown ++ "&appid=" ++ env_to_string key ++ "&units=metric".

(** ** What a lookup does once the call is issued *)

(** The URL is built exactly when the city converts. *)
Lemma url_of_shown (key : env_var) (city : city_param) (shown : string) :
  city_to_string city = Normal shown ->
  openWeatherMapUrl key city = Normal (lookup_url key shown).
Proof.
  intros H. unfold openWeatherMapUrl. rewrite H. reflexivity.
Qed.

Lemma url_built_shown (key : env_var) (city : city_param) (url : string) :
  openWeatherMapUrl key city = Normal url ->
  exists shown, city_to_string city = Normal shown /\ url = lookup_url key shown.
Proof.
  unfold openWeatherMapUrl. destruct (city_to_string city) as [shown|e]; simpl.
  - intros [= <-]. exists shown. split; reflexivity.
  - discriminate.
Qed.

Lemma url_throws (key : env_var) (city : city_param) (e : js_error) :
  city_to_string city = Throw e -> openWeatherMapUrl key city = Throw e.
Proof.
  intros H. unfold openWeatherMapUrl. rewrite H. reflexivity.
Qed.

Section Lookup.

Variable key : env_var.
Variable provider : string -> fetch_outcome.
Variable city : city_param.
Variable url : string.
Hypothesis city_given : city_truthy city = true.
Hypothesis key_given : env_truthy key = true.
Hypothesis url_built : openWeatherMapUrl key city = Normal url.

(** With a city that converts and a key, the handler issues the call and
    replies according to how it settles. *)
Lemma lookup_cases :
  serve key provider ApiWeather city =
  match provider url with
  | Rejects => failed_reply url
  | Resolves r =>
      match json_body r with
      | None => failed_reply url
      | Some data =>
          if ok r then
            match weatherInfo data with
            | Normal info => (Normal tt, mkWorld 200 [(200, Json info)] [url])
            | Throw _ => failed_reply url
            end
          else
            match get_field data "message" with
            | Normal m =>
                (Normal tt,
                 mkWorld (status r)
                   [(status r, Json (VObj [("error", or_else m (VStr msg_external))]))]
                   [url])
            | Throw _ => failed_reply url
            end
      end
  end.
Proof.
  destruct (url_built_shown key city url url_built) as (shown & Hshown & _).
  unfold serve, weather_handler, bind at 1, eval at 1.
  rewrite Hshown, city_given, key_given. cbn [negb].
  unfold bind at 1, eval at 1. rewrite url_built.
  unfold try_catch, bind, fetch, response_json.
  cbn [fresh statusCode sent outbound app].
  destruct (provider url) as [|r]; [reflexivity|].
  destruct (json_body r) as [data|]; [|reflexivity].
  unfold ret. destruct (ok r); cbn [negb].
  - unfold eval. destruct (weatherInfo data); reflexivity.
  - unfold eval. destruct (get_field data "message"); reflexivity.
Qed.

End Lookup.

(** A city that does not convert ends the handler on line 35. *)
Lemma lookup_throws
  (key : env_var) (provider : string -> fetch_outcome) (city : city_param)
  (e : js_error) :
  city_to_string city = Throw e ->
  serve key provider ApiWeather city = (Throw e, fresh).
Proof.
  intros H. unfold serve, weather_handler, bind at 1, eval at 1.
  rewrite H. reflexivity.
Qed.

(** Without a city, or without a key, the reply is written before any call. *)
Lemma lookup_without_city
  (key : env_var) (provider : string -> fetch_outcome) (city : city_param)
  (shown : string) :
  city_to_string city = Normal shown ->
  city_truthy city = false ->
  serve key provider ApiWeather city =
  (Normal tt, mkWorld 400 [(400, error_body msg_city_required)] []).
Proof.
  intros Hs Hc. unfold serve, weather_handler, bind at 1, eval at 1.
  rewrite Hs, Hc. reflexivity.
Qed.

Lemma keyless_lookup_refused
  (key : env_var) (provider : string -> fetch_outcome) (city : city_param)
  (shown : string) :
  city_to_string city = Normal shown ->
  city_truthy city = true ->
  env_truthy key = false ->
  serve key provider ApiWeather city =
  (Normal tt, mkWorld 500 [(500, error_body msg_not_configured)] []).
Proof.
  intros Hs Hc Hk. unfold serve, weather_handler, bind at 1, eval at 1.
  rewrite Hs, Hc, Hk. reflexivity.
Qed.

(** The calls a lookup issues: the one URL when there is a city that
    converts and a key, none otherwise. *)
Lemma lookup_outbound
  (key : env_var) (provider : string -> fetch_outcome) (city : city_param) :
  outbound (snd (serve key provider ApiWeather city)) =
  if city_truthy city && env_truthy key then
    match openWeatherMapUrl key city with
    | Normal url => [url]
    | Throw _ => []
    end
  else [].
Proof.
  destruct (city_to_string city) as [shown|e] eqn:Hs.
  - rewrite (url_of_shown key city shown Hs).
    destruct (city_truthy city) eqn:Hc; [destruct (env_truthy key) eqn:Hk|].
    + rewrite (lookup_cases key provider city _ Hc Hk (url_of_shown key city shown Hs)).
      destruct (provider _) as [|r]; [reflexivity|].
      destruct (json_body r); [|reflexivity].
      destruct (ok r).
      * destruct (weatherInfo _); reflexivity.
      * destruct (get_field _ _); reflexivity.
    + rewrite (keyless_lookup_refused key provider city shown Hs Hc Hk). reflexivity.
    + rewrite (lookup_without_city key provider city shown Hs Hc). reflexivity.
  - rewrite (lookup_throws key provider city e Hs), (url_throws key city e Hs).
    destruct (city_truthy city && env_truthy key); reflexivity.
Qed.

(** A lookup that issued a call had a city, a key and a URL. *)
Lemma call_issued
  (key : env_var) (provider : string -> fetch_outcome) (city : city_param)
  (url : string) :
  outbound (snd (serve key provider ApiWeather city)) = [url] ->
  city_truthy city = true /\ env_truthy key = true
  /\ openWeatherMapUrl key city = Normal url.
Proof.
  rewrite lookup_outbound.
  destruct (city_truthy city); [|discriminate].
  destruct (env_truthy key); [|discriminate].
  destruct (openWeatherMapUrl key city) as [u|e]; [|discriminate].
  intros [= ->]. repeat split.
Qed.

(** ** Facts on member access *)

Lemma field_get (v : value) (k : string) (x : value) :
  field v k = Some x -> get_field v k = Normal x.
Proof.
  destruct v; simpl; try discriminate.
  intros ->. reflexivity.
Qed.

Lemma field_absent_get (v : value) (k : string) :
  field v k = None -> get_field v k = Throw TypeError \/ get_field v k = Normal VUndefined.
Proof.
  destruct v; simpl; intros H; auto.
  rewrite H. auto.
Qed.

(** Whatever [data] is, reading a property of it either throws or yields a
    value; a sequence of reads that reaches a throwing one throws. *)
Lemma and_then_throw {A B} (c : completion A) (k : A -> completion B) :
  (forall a, c = Normal a -> exists e, k a = Throw e) ->
  exists e, and_then c k = Throw e.
Proof.
  destruct c as [a|e]; simpl; intros H.
  - apply (H a eq_refl).
  - exists e. reflexivity.
Qed.

(** The summary cannot be built when [data.weather[0]] is not there. *)
Lemma weatherInfo_needs_first_entry (data : value) :
  field data "weather" = None \/ field data "weather" = Some (VArr []) ->
  exists e, weatherInfo data = Throw e.
Proof.
  intros H. unfold weatherInfo.
  do 7 (apply and_then_throw; intros ? _).
  assert (Hw : exists e, (let* first1 := (let* w := get_field data "weather" in get_index w 0)
                          in get_field first1 "description") = Throw e).
  { destruct H as [H|H].
    - destruct (field_absent_get _ _ H) as [-> | ->]; simpl; eauto.
    - rewrite (field_get _ _ _ H). simpl. eauto. }
  destruct Hw as [e He].
  destruct (get_field data "weather") as [w|e']; simpl in *; [|eauto].
  destruct (get_index w 0) as [f|e']; simpl in *; [|eauto].
  rewrite He. simpl. eauto.
Qed.

(** On a well-formed body every read succeeds. *)
Lemma weatherInfo_well_formed
  (data name country temp feels_like description icon humidity : value) :
  well_formed data name country temp feels_like description icon humidity ->
  weatherInfo data = Normal (summary name country temp feels_like description icon humidity).
Proof.
  intros [Hn (sys & Hs & Hc) (main & Hm & Ht & Hf & Hh) (first & rest & Hw & Hd & Hi)].
  unfold weatherInfo.
  rewrite (field_get _ _ _ Hn), (field_get _ _ _ Hs), (field_get _ _ _ Hm),
    (field_get _ _ _ Hw).
  cbn [and_then get_index nth_error].
  rewrite (field_get _ _ _ Hc), (field_get _ _ _ Ht), (field_get _ _ _ Hf),
    (field_get _ _ _ Hd), (field_get _ _ _ Hi), (field_get _ _ _ Hh).
  reflexivity.
Qed.

(** When the summary is built it has the seven keys. *)
Lemma weatherInfo_shape (data info : value) :
  weatherInfo data = Normal info ->
  exists c co t f d i h, info = summary c co t f d i h.
Proof.
  unfold weatherInfo.
  repeat match goal with
         | |- and_then ?c _ = _ -> _ => destruct c; cbn [and_then]; [|discriminate]
         end.
  intros [= <-]. unfold summary. eauto 10.
Qed.

Lemma ok_range (r : fetch_response) : ok r = true <-> 200 <= status r < 300.
Proof. unfold ok. rewrite andb_true_iff, Z.leb_le, Z.ltb_lt. tauto. Qed.

Lemma empty_string_eqb (s : string) : s <> "" -> negb (s =? "")%string = true.
Proof.
  intros H. destruct (String.eqb_spec s ""); [contradiction|reflexivity].
Qed.

(** ** Runs *)

(** The provider's own 404 for an unknown city comes back as it is. *)
Example unknown_city_run :
  serve (Some "secret")
        (stub 404 (Some (VObj [("cod", VStr "404"); ("message", VStr "city not found")])))
        ApiWeather (Some (QStr "Atlantis")) =
  (Normal tt,
   mkWorld 404 [(404, error_body "city not found")]
     ["https://api.openweathermap.org/data/2.5/weather?q=Atlantis&appid=secret&units=metric"]).
Proof. reflexivity. Qed.

(** A repeated parameter, [?city=Oslo&city=Rome], is truthy and is joined
    with a comma by the template literal. *)
Example repeated_city_run :
  outbound (snd (serve (Some "secret") unreachable ApiWeather
                   (Some (QArr [QStr "Oslo"; QStr "Rome"])))) =
  ["https://api.openweathermap.org/data/2.5/weather?q=Oslo,Rome&appid=secret&units=metric"].
Proof. reflexivity. Qed.

(** A first [weather] entry that is [null] cannot be read either. *)
Example null_entry_run :
  serve (Some "secret")
        (stub 200 (Some (VObj [("name", VStr "London"); ("sys", VObj []);
                               ("main", VObj []); ("weather", VArr [VNull])])))
        ApiWeather (Some (QStr "London")) =
  failed_reply (lookup_url (Some "secret") "London").
Proof. reflexivity. Qed.

(** [?city[toString]=x]: the conversion on line 35 throws before either
    guard and outside the [try]; nothing is replied and nothing is called,
    with or without a key. *)
Example unprintable_city_run :
  serve None (stub 200 (Some london)) ApiWeather unprintable = (Throw TypeError, fresh)
  /\ serve (Some "secret") (stub 200 (Some london)) ApiWeather unprintable =
     (Throw TypeError, fresh).
Proof. split; reflexivity. Qed.

(** ** The lookup route *)

(** C1. When the call to the provider is answered with a 2xx status and a
    well-formed body, the handler replies with status 200 and a summary whose
    seven fields [city], [country], [temperature], [feelsLike],
    [description], [icon] and [humidity] are the provider's [name],
    [sys.country], [main.temp], [main.feels_like], [weather[0].description],
    [weather[0].icon] and [main.humidity], unchanged. *)
Theorem success_copies_provider_fields
  (key : env_var) (provider : string -> fetch_outcome) (city : city_param)
  (url : string) (st : Z)
  (data name country temp feels_like description icon humidity : value) :
  outbound (snd (serve key provider ApiWeather city)) = [url] ->
  provider url = Resolves (mkResponse st (Some data)) ->
  200 <= st < 300 ->
  well_formed data name country temp feels_like description icon humidity ->
  serve key provider ApiWeather city =
  (Normal tt,
   mkWorld 200
     [(200, Json (summary name country temp feels_like description icon humidity))]
     [url]).
Proof.
  intros Hout Hp Hst Hwf.
  destruct (call_issued key provider city url Hout) as (Hc & Hk & Hu).
  rewrite (lookup_cases key provider city url Hc Hk Hu).
  rewrite Hp. cbn [json_body].
  replace (ok (mkResponse st (Some data))) with true
    by (symmetry; apply ok_range; exact Hst).
  rewrite (weatherInfo_well_formed _ _ _ _ _ _ _ _ Hwf). reflexivity.
Qed.

Lemma success_copies_provider_fields_witness :
  serve (Some "secret") (stub 200 (Some london)) ApiWeather (Some (QStr "London")) =
  (Normal tt,
   mkWorld 200
     [(200, Json (summary (VStr "London") (VStr "GB")
                    (VNum (S754_finite false 25 (-1)))
                    (VNum (S754_finite false 23 (-1)))
                    (VStr "light rain") (VStr "10d")
                    (VNum (S754_finite false 81 0))))]
     ["https://api.openweathermap.org/data/2.5/weather?q=London&appid=secret&units=metric"]).
Proof.
  apply (success_copies_provider_fields (Some "secret") (stub 200 (Some london))
           (Some (QStr "London"))
           "https://api.openweathermap.org/data/2.5/weather?q=London&appid=secret&units=metric"
           200 london).
  - reflexivity.
  - reflexivity.
  - lia.
  - constructor.
    + reflexivity.
    + exists (VObj [("country", VStr "GB")]). split; reflexivity.
    + eexists. repeat split; reflexivity.
    + eexists. eexists. repeat split; reflexivity.
Defined.

(** C2. When [city] is absent or the empty string, the reply is status 400
    with body [{ error: "City parameter is required." }] and no call goes out
    to the provider, with or without a key. *)
Theorem missing_city_is_refused
  (key : env_var) (provider : string -> fetch_outcome) (city : city_param) :
  city = None \/ city = Some (QStr "") ->
  serve key provider ApiWeather city =
  (Normal tt, mkWorld 400 [(400, error_body "City parameter is required.")] []).
Proof.
  intros [-> | ->]; reflexivity.
Qed.

Lemma missing_city_is_refused_witness :
  serve (Some "secret") (stub 200 (Some london)) ApiWeather (Some (QStr "")) =
  (Normal tt, mkWorld 400 [(400, error_body "City parameter is required.")] []).
Proof.
  apply (missing_city_is_refused (Some "secret") (stub 200 (Some london)) (Some (QStr ""))).
  right. reflexivity.
Defined.

(** C3, as stated, fails: with the key unset and no city, the reply is the
    400 of the city check, not the 500 of the key check. *)
Lemma unset_key_without_city_is_400 :
  serve None unreachable ApiWeather None =
  (Normal tt, mkWorld 400 [(400, error_body "City parameter is required.")] [])
  /\ sent (snd (serve None unreachable ApiWeather None)) <>
     [(500, error_body "Server is not configured with the API key.")].
Proof.
  split; [reflexivity | discriminate].
Qed.

(** C3, amended. When the key is unset (or empty) no call goes out to the
    provider whatever [city] is, and every request with a non-empty [city]
    whose string conversion does not throw gets status 500 with body
    [{ error: "Server is not configured with the API key." }]. *)
Theorem unset_key_is_reported
  (key : env_var) (provider : string -> fetch_outcome) (city : city_param)
  (shown : string) :
  env_truthy key = false ->
  outbound (snd (serve key provider ApiWeather city)) = []
  /\ (city_truthy city = true ->
      city_to_string city = Normal shown ->
      serve key provider ApiWeather city =
      (Normal tt,
       mkWorld 500 [(500, error_body "Server is not configured with the API key.")] [])).
Proof.
  intros Hk. split.
  - rewrite lookup_outbound, Hk, andb_false_r. reflexivity.
  - intros Hc Hs. apply (keyless_lookup_refused key provider city shown Hs Hc Hk).
Qed.

Lemma unset_key_is_reported_witness :
  outbound (snd (serve None (stub 200 (Some london)) ApiWeather (Some (QStr "Paris")))) = []
  /\ serve None (stub 200 (Some london)) ApiWeather (Some (QStr "Paris")) =
     (Normal tt,
      mkWorld 500 [(500, error_body "Server is not configured with the API key.")] []).
Proof.
  split.
  - apply (unset_key_is_reported None (stub 200 (Some london)) (Some (QStr "Paris")) "Paris").
    reflexivity.
  - apply (unset_key_is_reported None (stub 200 (Some london)) (Some (QStr "Paris")) "Paris").
    + reflexivity.
    + reflexivity.
    + reflexivity.
Defined.

(** C4, as stated, fails: a 404 whose body is the JSON value [null] has no
    [message], yet the reply is neither 404 nor the fallback message; reading
    [data.message] throws and the reply is the 500 of the [catch] block.  A
    body that is not JSON at all ends the same way. *)
Lemma null_body_loses_provider_status :
  serve (Some "secret") (stub 404 (Some VNull)) ApiWeather (Some (QStr "London")) =
  failed_reply "https://api.openweathermap.org/data/2.5/weather?q=London&appid=secret&units=metric"
  /\ sent (snd (serve (Some "secret") (stub 404 (Some VNull)) ApiWeather
                  (Some (QStr "London")))) <>
     [(404, error_body "Error fetching weather data from external API")]
  /\ serve (Some "secret") (stub 502 None) ApiWeather (Some (QStr "London")) =
     failed_reply "https://api.openweathermap.org/data/2.5/weather?q=London&appid=secret&units=metric".
Proof.
  repeat split; try reflexivity. discriminate.
Qed.

(** C4, amended. When the call to the provider is answered with a status
    outside 2xx and a body that parses as JSON to a value other than [null]
    (so that [data.message] can be read, giving [message]), the reply carries
    exactly the provider's status and the body [{ error: m }], where [m] is
    [message] when it is truthy and otherwise the string
    "Error fetching weather data from external API". *)
Theorem provider_error_is_forwarded
  (key : env_var) (provider : string -> fetch_outcome) (city : city_param)
  (url : string) (st : Z) (data message : value) :
  outbound (snd (serve key provider ApiWeather city)) = [url] ->
  provider url = Resolves (mkResponse st (Some data)) ->
  ~ 200 <= st < 300 ->
  get_field data "message" = Normal message ->
  serve key provider ApiWeather city =
  (Normal tt,
   mkWorld st
     [(st, Json (VObj [("error",
         if truthy message then message
         else VStr "Error fetching weather data from external API")]))]
     [url]).
Proof.
  intros Hout Hp Hst Hm.
  destruct (call_issued key provider city url Hout) as (Hc & Hk & Hu).
  rewrite (lookup_cases key provider city url Hc Hk Hu).
  rewrite Hp. cbn [json_body status].
  destruct (ok (mkResponse st (Some data))) eqn:Hok.
  - apply ok_range in Hok. contradiction.
  - rewrite Hm. reflexivity.
Qed.

Lemma provider_error_is_forwarded_witness :
  serve (Some "secret")
        (stub 404 (Some (VObj [("cod", VStr "404"); ("message", VStr "city not found")])))
        ApiWeather (Some (QStr "Atlantis")) =
  (Normal tt,
   mkWorld 404 [(404, error_body "city not found")]
     ["https://api.openweathermap.org/data/2.5/weather?q=Atlantis&appid=secret&units=metric"]).
Proof.
  apply (provider_error_is_forwarded (Some "secret")
           (stub 404 (Some (VObj [("cod", VStr "404"); ("message", VStr "city not found")])))
           (Some (QStr "Atlantis"))
           "https://api.openweathermap.org/data/2.5/weather?q=Atlantis&appid=secret&units=metric"
           404
           (VObj [("cod", VStr "404"); ("message", VStr "city not found")])
           (VStr "city not found")).
  - reflexivity.
  - reflexivity.
  - lia.
  - reflexivity.
Defined.

(** C5. When the outbound call rejects, or the body of its response does not
    parse as JSON, the reply is status 500 with body
    [{ error: "Failed to fetch weather data." }]. *)
Theorem transport_failure_is_500
  (key : env_var) (provider : string -> fetch_outcome) (city : city_param)
  (url : string) :
  outbound (snd (serve key provider ApiWeather city)) = [url] ->
  provider url = Rejects \/ (exists st, provider url = Resolves (mkResponse st None)) ->
  serve key provider ApiWeather city =
  (Normal tt, mkWorld 500 [(500, error_body "Failed to fetch weather data.")] [url]).
Proof.
  intros Hout Hfail.
  destruct (call_issued key provider city url Hout) as (Hc & Hk & Hu).
  rewrite (lookup_cases key provider city url Hc Hk Hu).
  destruct Hfail as [-> | [st ->]]; reflexivity.
Qed.

Lemma transport_failure_is_500_witness :
  serve (Some "secret") unreachable ApiWeather (Some (QStr "London")) =
  (Normal tt,
   mkWorld 500 [(500, error_body "Failed to fetch weather data.")]
     ["https://api.openweathermap.org/data/2.5/weather?q=London&appid=secret&units=metric"]).
Proof.
  apply (transport_failure_is_500 (Some "secret") unreachable (Some (QStr "London"))).
  - reflexivity.
  - left. reflexivity.
Defined.

(** ** The health route *)

(** C6. A request to [/health] gets status 200 and the text
    "Backend is healthy!", whatever the key, the city parameter and the
    provider are; it reaches for none of them. *)
Theorem health_is_constant
  (key : env_var) (provider : string -> fetch_outcome) (city : city_param) :
  serve key provider Health city =
  (Normal tt, mkWorld 200 [(200, Text "Backend is healthy!")] []).
Proof.
  reflexivity.
Qed.

(** ** Number of outbound calls *)

(** C7, as stated, fails: an empty [city] is present in the query, the key is
    configured, and no call goes out. *)
Lemma empty_city_issues_no_call :
  Some (QStr "") <> (None : city_param)
  /\ env_truthy (Some "secret") = true
  /\ outbound (snd (serve (Some "secret") (stub 200 (Some london)) ApiWeather
                      (Some (QStr "")))) = [].
Proof.
  repeat split. discriminate.
Qed.

(** C7, amended. A request issues at most one call to the provider.  For a
    [city] whose string conversion does not throw, a lookup issues exactly
    one when [city] is present and not empty and the key is configured, and
    none otherwise.  The one call goes to the URL built from the city and the
    key.  The health route issues none. *)
Theorem at_most_one_outbound_call
  (key : env_var) (provider : string -> fetch_outcome) (r : route) (city : city_param) :
  (length (outbound (snd (serve key provider r city))) <= 1)%nat
  /\ (forall shown, city_to_string city = Normal shown ->
      (length (outbound (snd (serve key provider r city))) = 1%nat <->
       r = ApiWeather /\ city_truthy city = true /\ env_truthy key = true))
  /\ (length (outbound (snd (serve key provider r city))) = 1%nat ->
      exists url, openWeatherMapUrl key city = Normal url
                  /\ outbound (snd (serve key provider r city)) = [url])
  /\ (r = Health -> outbound (snd (serve key provider r city)) = []).
Proof.
  destruct r.
  - rewrite lookup_outbound.
    destruct (city_truthy city) eqn:Hc; [destruct (env_truthy key) eqn:Hk|]; cbn [andb].
    + destruct (openWeatherMapUrl key city) as [url|e] eqn:Hu; cbn [length].
      * repeat split; auto; try discriminate.
        intros _. exists url. split; reflexivity.
      * repeat split; auto; try discriminate.
        intros _. pose proof (url_of_shown key city shown H) as Hu'. congruence.
    + cbn [length]. repeat split; auto; try discriminate.
      intros (_ & _ & H'). discriminate H'.
    + cbn [length]. repeat split; auto; try discriminate.
      intros (_ & H' & _). discriminate H'.
  - cbn. repeat split; auto; try discriminate.
    intros [H' _]. discriminate H'.
Qed.

(** ** Shape of the reply *)

(** C8, as stated, fails: a 2xx body with the expected skeleton and no leaves
    yields a summary under status 200 in which six of the seven fields are
    [undefined]; and a provider message that is a number is forwarded as it
    is, so the error body is not [{ error: string }]. *)
Lemma hollow_body_gives_partial_summary :
  serve (Some "secret") (stub 200 (Some hollow)) ApiWeather (Some (QStr "Nowhere")) =
  (Normal tt,
   mkWorld 200
     [(200, Json (summary (VStr "Nowhere") VUndefined VUndefined VUndefined
                    VUndefined VUndefined VUndefined))]
     ["https://api.openweathermap.org/data/2.5/weather?q=Nowhere&appid=secret&units=metric"])
  /\ forallb summary_or_error
       (sent (snd (serve (Some "secret") (stub 200 (Some hollow)) ApiWeather
                     (Some (QStr "Nowhere"))))) = false
  /\ forallb summary_or_error
       (sent (snd (serve (Some "secret")
                     (stub 401 (Some (VObj [("message", VNum (S754_finite false 401 0))])))
                     ApiWeather (Some (QStr "London"))))) = false.
Proof.
  repeat split.
Qed.

(** C8, amended. For every [city] whose string conversion does not throw
    (an absent one, a string, an array of strings) and whatever the provider
    does, the lookup ends normally and exactly one reply is written.  The
    reply is either a summary object with the seven keys under status 200,
    or an object with the single key [error] under a status outside 2xx.
    The error value is truthy: it is a string, or else the [message] the
    provider sent, forwarded unchecked.  (What the seven summary values are
    is the matter of C1: they are read from the provider's body
    unchecked.) *)
Theorem every_lookup_gets_one_reply
  (key : env_var) (provider : string -> fetch_outcome) (city : city_param)
  (shown : string) :
  city_to_string city = Normal shown ->
  exists (st : Z) (body : value),
    fst (serve key provider ApiWeather city) = Normal tt
    /\ sent (snd (serve key provider ApiWeather city)) = [(st, Json body)]
    /\ ((st = 200 /\ exists c co t f d i h, body = summary c co t f d i h)
        \/ (~ 200 <= st < 300
            /\ exists m, body = VObj [("error", m)] /\ truthy m = true
               /\ ((exists s, m = VStr s)
                   \/ (exists url r data,
                         openWeatherMapUrl key city = Normal url
                         /\ provider url = Resolves r
                         /\ json_body r = Some data
                         /\ get_field data "message" = Normal m)))).
Proof.
  intros Hshown.
  assert (Hfixed : forall (st : Z) (s : string) (out : list string),
    ~ 200 <= st < 300 -> truthy (VStr s) = true ->
    serve key provider ApiWeather city = (Normal tt, mkWorld st [(st, error_body s)] out) ->
    exists (st : Z) (body : value),
      fst (serve key provider ApiWeather city) = Normal tt
      /\ sent (snd (serve key provider ApiWeather city)) = [(st, Json body)]
      /\ ((st = 200 /\ exists c co t f d i h, body = summary c co t f d i h)
          \/ (~ 200 <= st < 300
              /\ exists m, body = VObj [("error", m)] /\ truthy m = true
                 /\ ((exists s, m = VStr s)
                     \/ (exists url r data,
                           openWeatherMapUrl key city = Normal url
                           /\ provider url = Resolves r
                           /\ json_body r = Some data
                           /\ get_field data "message" = Normal m))))).
  { intros st s out Hst Hs ->. exists st, (VObj [("error", VStr s)]).
    repeat split. right. split; [exact Hst|].
    exists (VStr s). repeat split; [exact Hs|]. left. eauto. }
  pose proof (url_of_shown key city shown Hshown) as Hu.
  destruct (city_truthy city) eqn:Hc; [destruct (env_truthy key) eqn:Hk|].
  - pose proof (lookup_cases key provider city _ Hc Hk Hu) as Hrun.
    destruct (provider (lookup_url key shown)) as [|r] eqn:Hp.
    { apply (Hfixed 500 msg_failed _ ltac:(lia) eq_refl Hrun). }
    destruct (json_body r) as [data|] eqn:Hb.
    2:{ apply (Hfixed 500 msg_failed _ ltac:(lia) eq_refl Hrun). }
    destruct (ok r) eqn:Hok.
    + destruct (weatherInfo data) as [info|e] eqn:Hinfo.
      * rewrite Hrun. exists 200, info. repeat split.
        left. split; [reflexivity|]. apply (weatherInfo_shape data info Hinfo).
      * apply (Hfixed 500 msg_failed _ ltac:(lia) eq_refl Hrun).
    + destruct (get_field data "message") as [m|e] eqn:Hm.
      * rewrite Hrun. exists (status r), (VObj [("error", or_else m (VStr msg_external))]).
        repeat split. right. split.
        { intros Hr. apply ok_range in Hr. congruence. }
        exists (or_else m (VStr msg_external)). repeat split.
        { unfold or_else. destruct (truthy m) eqn:Ht; [exact Ht | reflexivity]. }
        unfold or_else. destruct (truthy m); [right | left]; eauto 10.
      * apply (Hfixed 500 msg_failed _ ltac:(lia) eq_refl Hrun).
  - apply (Hfixed 500 msg_not_configured [] ltac:(lia) eq_refl).
    apply (keyless_lookup_refused key provider city shown Hshown Hc Hk).
  - apply (Hfixed 400 msg_city_required [] ltac:(lia) eq_refl).
    apply (lookup_without_city key provider city shown Hshown Hc).
Qed.

Lemma every_lookup_gets_one_reply_witness :
  exists (st : Z) (body : value),
    fst (serve (Some "secret") (stub 200 (Some hollow)) ApiWeather
           (Some (QArr [QStr "Oslo"; QStr "Rome"]))) = Normal tt
    /\ sent (snd (serve (Some "secret") (stub 200 (Some hollow)) ApiWeather
                    (Some (QArr [QStr "Oslo"; QStr "Rome"])))) = [(st, Json body)]
    /\ ((st = 200 /\ exists c co t f d i h, body = summary c co t f d i h)
        \/ (~ 200 <= st < 300
            /\ exists m, body = VObj [("error", m)] /\ truthy m = true
               /\ ((exists s, m = VStr s)
                   \/ (exists url r data,
                         openWeatherMapUrl (Some "secret")
                           (Some (QArr [QStr "Oslo"; QStr "Rome"])) = Normal url
                         /\ stub 200 (Some hollow) url = Resolves r
                         /\ json_body r = Some data
                         /\ get_field data "message" = Normal m)))).
Proof.
  apply (every_lookup_gets_one_reply (Some "secret") (stub 200 (Some hollow))
           (Some (QArr [QStr "Oslo"; QStr "Rome"])) "Oslo,Rome").
  reflexivity.
Defined.

(** C9. When the call to the provider is answered with a 2xx status and a
    body whose [weather] list is absent or empty, nothing is thrown out of
    the handler: the failed read is caught and the reply is status 500 with
    body [{ error: "Failed to fetch weather data." }], the very reply a
    rejected call gets. *)
Theorem missing_weather_entry_is_500
  (key : env_var) (provider : string -> fetch_outcome) (city : city_param)
  (url : string) (st : Z) (data : value) :
  outbound (snd (serve key provider ApiWeather city)) = [url] ->
  provider url = Resolves (mkResponse st (Some data)) ->
  200 <= st < 300 ->
  field data "weather" = None \/ field data "weather" = Some (VArr []) ->
  serve key provider ApiWeather city =
  (Normal tt, mkWorld 500 [(500, error_body "Failed to fetch weather data.")] [url])
  /\ serve key provider ApiWeather city = serve key unreachable ApiWeather city.
Proof.
  intros Hout Hp Hst Hw.
  destruct (call_issued key provider city url Hout) as (Hc & Hk & Hu).
  rewrite (lookup_cases key unreachable city url Hc Hk Hu).
  rewrite (lookup_cases key provider city url Hc Hk Hu).
  rewrite Hp. cbn [json_body unreachable].
  replace (ok (mkResponse st (Some data))) with true
    by (symmetry; apply ok_range; exact Hst).
  destruct (weatherInfo_needs_first_entry data Hw) as [e ->].
  split; reflexivity.
Qed.

(** London's body with every field in place and an empty [weather] list:
    the read that fails is [data.weather[0].description]. *)
Lemma missing_weather_entry_is_500_witness :
  serve (Some "secret")
        (stub 200
           (Some (VObj [("name", VStr "London");
                        ("sys", VObj [("country", VStr "GB")]);
                        ("main", VObj [("temp", VNum (S754_finite false 25 (-1)));
                                       ("feels_like", VNum (S754_finite false 23 (-1)));
                                       ("humidity", VNum (S754_finite false 81 0))]);
                        ("weather", VArr [])])))
        ApiWeather (Some (QStr "London")) =
  (Normal tt,
   mkWorld 500 [(500, error_body "Failed to fetch weather data.")]
     ["https://api.openweathermap.org/data/2.5/weather?q=London&appid=secret&units=metric"])
  /\ serve (Some "secret")
        (stub 200
           (Some (VObj [("name", VStr "London");
                        ("sys", VObj [("country", VStr "GB")]);
                        ("main", VObj [("temp", VNum (S754_finite false 25 (-1)));
                                       ("feels_like", VNum (S754_finite false 23 (-1)));
                                       ("humidity", VNum (S754_finite false 81 0))]);
                        ("weather", VArr [])])))
        ApiWeather (Some (QStr "London")) =
     serve (Some "secret") unreachable ApiWeather (Some (QStr "London")).
Proof.
  apply (missing_weather_entry_is_500 (Some "secret")
           (stub 200
              (Some (VObj [("name", VStr "London");
                           ("sys", VObj [("country", VStr "GB")]);
                           ("main", VObj [("temp", VNum (S754_finite false 25 (-1)));
                                          ("feels_like", VNum (S754_finite false 23 (-1)));
                                          ("humidity", VNum (S754_finite false 81 0))]);
                           ("weather", VArr [])])))
           (Some (QStr "London"))
           "https://api.openweathermap.org/data/2.5/weather?q=London&appid=secret&units=metric"
           200
           (VObj [("name", VStr "London");
                  ("sys", VObj [("country", VStr "GB")]);
                  ("main", VObj [("temp", VNum (S754_finite false 25 (-1)));
                                 ("feels_like", VNum (S754_finite false 23 (-1)));
                                 ("humidity", VNum (S754_finite false 81 0))]);
                  ("weather", VArr [])])).
  - reflexivity.
  - reflexivity.
  - lia.
  - right. reflexivity.
Defined.

(** ** The outbound URL *)

(** C10. For a city string [s], the URL passed to [fetch] is the city and the
    key spliced as they are into the fixed template
    [https://api.openweathermap.org/data/2.5/weather?q=<city>&appid=<key>&units=metric];
    nothing is encoded or removed, whatever characters [s] holds. *)
Theorem url_splices_city_verbatim
  (provider : string -> fetch_outcome) (k s : string) :
  k <> "" ->
  s <> "" ->
  outbound (snd (serve (Some k) provider ApiWeather (Some (QStr s)))) =
  ["https://api.openweathermap.org/data/2.5/weather?q=" ++ s ++ "&appid=" ++ k
   ++ "&units=metric"].
Proof.
  intros Hk Hs. rewrite lookup_outbound.
  cbn [city_truthy env_truthy].
  rewrite (empty_string_eqb s Hs), (empty_string_eqb k Hk). reflexivity.
Qed.

Lemma url_splices_city_verbatim_witness :
  outbound (snd (serve (Some "secret") unreachable ApiWeather
                   (Some (QStr "Paris&appid=other units=imperial")))) =
  ["https://api.openweathermap.org/data/2.5/weather?q=Paris&appid=other units=imperial&appid=secret&units=metric"].
Proof.
  apply (url_splices_city_verbatim unreachable "secret" "Paris&appid=other units=imperial").
  - discriminate.
  - discriminate.
Defined.

(** The same body without [weather] at all: [data.weather[0]] throws. *)
Example absent_weather_run :
  serve (Some "secret")
        (stub 200
           (Some (VObj [("name", VStr "London");
                        ("sys", VObj [("country", VStr "GB")]);
                        ("main", VObj [("temp", VNum (S754_finite false 25 (-1)))])])))
        ApiWeather (Some (QStr "London")) =
  failed_reply (lookup_url (Some "secret") "London").
Proof. reflexivity. Qed.

(** ** Facts on strings *)

Lemma split_head_unfold (s sep : string) :
  split_head s sep =
  if String.prefix sep s then ""
  else match s with
       | EmptyString => EmptyString
       | String c s' => String c (split_head s' sep)
       end.
Proof. destruct s; reflexivity. Qed.

Lemma prefix_append (sep rest : string) : String.prefix sep (sep ++ rest) = true.
Proof.
  induction sep as [|c sep IH]; simpl.
  - destruct rest; reflexivity.
  - destruct (Ascii.ascii_dec c c) as [_|Hne]; [exact IH | contradiction].
Qed.


(** Without an ampersand in [a], the first ["&appid="] of
    [a ++ "&appid=" ++ b] is the one after [a]. *)
Lemma split_head_plain (a b : string) :
  occurs "&"%char a = false ->
  split_head (a ++ "&appid=" ++ b) "&appid=" = a.
Proof.
  induction a as [|c a IH]; intros Ha.
  - change ("" ++ "&appid=" ++ b) with ("&appid=" ++ b).
    rewrite split_head_unfold, prefix_append. reflexivity.
  - cbn [occurs] in Ha. apply orb_false_elim in Ha. destruct Ha as [Hc Ha].
    change (String c a ++ "&appid=" ++ b) with (String c (a ++ "&appid=" ++ b)).
    rewrite split_head_unfold.
    replace (String.prefix "&appid=" (String c (a ++ "&appid=" ++ b))) with false.
    + rewrite (IH Ha). reflexivity.
    + cbn [String.prefix]. destruct (Ascii.ascii_dec "&"%char c) as [<-|_]; [|reflexivity].
      discriminate Hc.
Qed.

Lemma occurs_append (c : Ascii.ascii) (a b : string) :
  occurs c (a ++ b) = occurs c a || occurs c b.
Proof.
  induction a as [|c' a IH]; simpl; [reflexivity|].
  rewrite IH, orb_assoc. reflexivity.
Qed.

(** [s.substring(0, n)] is a prefix of [s] of length [min n (length s)]. *)
Lemma substring_prefix (n : nat) (s : string) :
  exists hidden,
    s = substring 0 n s ++ hidden
    /\ String.length (substring 0 n s) = Nat.min n (String.length s).
Proof.
  revert s. induction n as [|n IH]; intros s.
  - exists s. destruct s; split; reflexivity.
  - destruct s as [|c s].
    + exists "". split; reflexivity.
    + destruct (IH s) as (hidden & Hs & Hlen). exists hidden. cbn.
      rewrite <- Hs, Hlen. split; reflexivity.
Qed.

(** ** Facts on the summary *)

Lemma get_field_member (v : value) (k : string) :
  get_field v k = if nullish v then Throw TypeError else Normal (member v k).
Proof.
  unfold member. destruct v; simpl; try reflexivity.
  destruct (own_property props k); reflexivity.
Qed.

Lemma get_index_element (v : value) (n : nat) :
  get_index v n = if nullish v then Throw TypeError else Normal (element v n).
Proof.
  unfold element. destruct v; simpl; try reflexivity.
  - destruct (String.get n s); reflexivity.
  - destruct (nth_error items n); reflexivity.
  - destruct (own_property props (index_key n)); reflexivity.
Qed.

(** The object literal of lines 67-75 in closed form. *)
Lemma weatherInfo_closed_form (data : value) :
  weatherInfo data =
  if readable data then Normal (summary_of data) else Throw TypeError.
Proof.
  unfold weatherInfo, readable, containers, summary_of.
  cbn [forallb].
  repeat first
    [ rewrite get_field_member
    | rewrite get_index_element
    | match goal with
      | H : nullish ?v = _ |- context [nullish ?v] => rewrite H
      end
    | progress cbn [negb andb and_then]
    | match goal with
      | |- context [if nullish ?v then _ else _] => destruct (nullish v) eqn:?
      end ];
    reflexivity.
Qed.

(** ** What a lookup writes to the console *)

Section LoggedLookup.

Variable key : env_var.
Variable provider : string -> fetch_outcome.
Variable city : city_param.
Variable shown url : string.
Hypothesis city_given : city_truthy city = true.
Hypothesis key_given : env_truthy key = true.
Hypothesis city_converts : city_to_string city = Normal shown.
Hypothesis url_built : openWeatherMapUrl key city = Normal url.

Let opening := [received shown; fetching (split_head url "&appid=")].

(** With a city that converts and a key: the reply and the console, by how
    the call settles. *)
Lemma logged_lookup_cases :
  serve_logged key provider city =
  match provider url with
  | Rejects => failure_trace shown url FetchError
  | Resolves r =>
      match json_body r with
      | None => failure_trace shown url SyntaxError
      | Some data =>
          if ok r then
            match weatherInfo data with
            | Normal info =>
                (Normal tt,
                 mkTraced (mkWorld 200 [(200, Json info)] [url])
                   (opening ++ [status_line (status r)]))
            | Throw e =>
                (Normal tt,
                 mkTraced (snd (failed_reply url))
                   (opening ++ [status_line (status r); caught e]))
            end
          else
            match get_field data "message" with
            | Normal m =>
                (Normal tt,
                 mkTraced
                   (mkWorld (status r)
                      [(status r, Json (VObj [("error", or_else m (VStr msg_external))]))]
                      [url])
                   (opening ++ [status_line (status r); external_error m]))
            | Throw e =>
                (Normal tt,
                 mkTraced (snd (failed_reply url))
                   (opening ++ [status_line (status r); caught e]))
            end
      end
  end.
Proof.
  unfold serve_logged, weather_handler_logged, lbind at 1, lift at 1, eval at 1.
  cbn [effects console]. rewrite city_converts.
  unfold lbind at 1, console_call at 1. cbn [effects console].
  rewrite city_given, key_given. cbn [negb].
  unfold lbind at 1, lift at 1, eval at 1. cbn [effects console]. rewrite url_built.
  unfold ltry_catch, lbind, console_call, lift, fetch, response_json, failure_trace.
  cbn [fresh statusCode sent outbound effects console app].
  destruct (provider url) as [|r]; [reflexivity|].
  destruct (json_body r) as [data|]; [|reflexivity].
  unfold ret. cbn [effects console]. destruct (ok r); cbn [negb].
  - unfold eval. destruct (weatherInfo data); reflexivity.
  - unfold eval. cbn [effects console]. destruct (get_field data "message"); reflexivity.
Qed.

End LoggedLookup.

(** A city that does not convert ends the handler before its first console
    call. *)
Lemma logged_lookup_throws
  (key : env_var) (provider : string -> fetch_outcome) (city : city_param)
  (e : js_error) :
  city_to_string city = Throw e ->
  serve_logged key provider city = (Throw e, mkTraced fresh []).
Proof.
  intros H. unfold serve_logged, weather_handler_logged, lbind at 1, lift at 1, eval at 1.
  cbn [effects console]. rewrite H. reflexivity.
Qed.

Lemma logged_lookup_without_city
  (key : env_var) (provider : string -> fetch_outcome) (city : city_param)
  (shown : string) :
  city_to_string city = Normal shown ->
  city_truthy city = false ->
  serve_logged key provider city =
  (Normal tt,
   mkTraced (mkWorld 400 [(400, error_body msg_city_required)] [])
     [received shown; (LogLevel, [str "Missing city parameter."])]).
Proof.
  intros Hs Hc.
  unfold serve_logged, weather_handler_logged, lbind at 1, lift at 1, eval at 1.
  cbn [effects console]. rewrite Hs.
  unfold lbind at 1, console_call at 1. cbn [effects console].
  rewrite Hc. reflexivity.
Qed.

Lemma logged_keyless_lookup
  (key : env_var) (provider : string -> fetch_outcome) (city : city_param)
  (shown : string) :
  city_to_string city = Normal shown ->
  city_truthy city = true ->
  env_truthy key = false ->
  serve_logged key provider city =
  (Normal tt,
   mkTraced (mkWorld 500 [(500, error_body msg_not_configured)] [])
     [received shown;
      (ErrorLevel, [str "OPENWEATHER_API_KEY is missing during API call attempt."])]).
Proof.
  intros Hs Hc Hk.
  unfold serve_logged, weather_handler_logged, lbind at 1, lift at 1, eval at 1.
  cbn [effects console]. rewrite Hs.
  unfold lbind at 1, console_call at 1. cbn [effects console].
  rewrite Hc, Hk. reflexivity.
Qed.

(** What the console calls write has no part in the rest: the handler with
    them ends as the handler without them does, normally or by the same
    throw, with the same reply and the same outbound call. *)
Lemma logged_effects_agree
  (key : env_var) (provider : string -> fetch_outcome) (city : city_param) :
  fst (serve_logged key provider city) = fst (serve key provider ApiWeather city)
  /\ effects (snd (serve_logged key provider city)) =
     snd (serve key provider ApiWeather city).
Proof.
  destruct (city_to_string city) as [shown|e] eqn:Hs.
  - pose proof (url_of_shown key city shown Hs) as Hu.
    destruct (city_truthy city) eqn:Hc; [destruct (env_truthy key) eqn:Hk|].
    + rewrite (logged_lookup_cases key provider city shown _ Hc Hk Hs Hu).
      rewrite (lookup_cases key provider city _ Hc Hk Hu).
      destruct (provider _) as [|r]; [split; reflexivity|].
      destruct (json_body r) as [data|]; [|split; reflexivity].
      destruct (ok r).
      * destruct (weatherInfo data); split; reflexivity.
      * destruct (get_field data "message"); split; reflexivity.
    + rewrite (logged_keyless_lookup key provider city shown Hs Hc Hk).
      rewrite (keyless_lookup_refused key provider city shown Hs Hc Hk).
      split; reflexivity.
    + rewrite (logged_lookup_without_city key provider city shown Hs Hc).
      rewrite (lookup_without_city key provider city shown Hs Hc).
      split; reflexivity.
  - rewrite (logged_lookup_throws key provider city e Hs).
    rewrite (lookup_throws key provider city e Hs). split; reflexivity.
Qed.

(** The first two console entries of a lookup that passed both guards. *)
Lemma logged_console_head
  (key : env_var) (provider : string -> fetch_outcome) (city : city_param)
  (shown : string) :
  city_truthy city = true ->
  env_truthy key = true ->
  city_to_string city = Normal shown ->
  exists rest,
    console (snd (serve_logged key provider city)) =
    received shown :: fetching (split_head (lookup_url key shown) "&appid=") :: rest.
Proof.
  intros Hc Hk Hs.
  rewrite (logged_lookup_cases key provider city shown _ Hc Hk Hs
             (url_of_shown key city shown Hs)).
  destruct (provider _) as [|r]; [eexists; reflexivity|].
  destruct (json_body r) as [data|]; [|eexists; reflexivity].
  destruct (ok r).
  - destruct (weatherInfo data); eexists; reflexivity.
  - destruct (get_field data "message"); eexists; reflexivity.
Qed.

Lemma url_parts (key : env_var) (shown : string) :
  lookup_url key shown =
  (api_base ++ shown) ++ "&appid=" ++ (env_to_string key ++ "&units=metric").
Proof. reflexivity. Qed.

Lemma not_ok_not_200 (r : fetch_response) : ok r = false -> (status r =? 200) = false.
Proof.
  intros H. destruct (Z.eqb_spec (status r) 200) as [E|]; [|reflexivity].
  unfold ok in H. rewrite E in H. discriminate H.
Qed.

(** ** More on the lookup route *)

(** X1. When the call to the provider is answered with a 2xx status and a
    body that parses to [data]: if none of [data], [data.sys], [data.main],
    [data.weather] and [data.weather[0]] is [undefined] or [null], the reply
    is status 200 with the summary read off the seven paths (a missing leaf
    reads as [undefined]); if one of them is, the reply is the 500 of the
    [catch] block. *)
Theorem readable_body_decides_success
  (key : env_var) (provider : string -> fetch_outcome) (city : city_param)
  (url : string) (st : Z) (data : value) :
  outbound (snd (serve key provider ApiWeather city)) = [url] ->
  provider url = Resolves (mkResponse st (Some data)) ->
  200 <= st < 300 ->
  serve key provider ApiWeather city =
  if readable data
  then (Normal tt, mkWorld 200 [(200, Json (summary_of data))] [url])
  else failed_reply url.
Proof.
  intros Hout Hp Hst.
  destruct (call_issued key provider city url Hout) as (Hc & Hk & Hu).
  rewrite (lookup_cases key provider city url Hc Hk Hu).
  rewrite Hp. cbn [json_body].
  replace (ok (mkResponse st (Some data))) with true
    by (symmetry; apply ok_range; exact Hst).
  rewrite weatherInfo_closed_form. destruct (readable data); reflexivity.
Qed.

Lemma readable_body_decides_success_witness :
  serve (Some "secret") (stub 201 (Some hollow)) ApiWeather (Some (QStr "Nowhere")) =
  (Normal tt,
   mkWorld 200
     [(200, Json (summary (VStr "Nowhere") VUndefined VUndefined VUndefined
                    VUndefined VUndefined VUndefined))]
     ["https://api.openweathermap.org/data/2.5/weather?q=Nowhere&appid=secret&units=metric"]).
Proof.
  apply (readable_body_decides_success (Some "secret") (stub 201 (Some hollow))
           (Some (QStr "Nowhere"))
           "https://api.openweathermap.org/data/2.5/weather?q=Nowhere&appid=secret&units=metric"
           201 hollow).
  - reflexivity.
  - reflexivity.
  - lia.
Defined.

(** X2. The handler learns of the provider only what the call to its one URL
    settles to: two providers that settle alike there (wherever the URL can
    be built) get the same reply, the same outbound call and the same
    console. *)
Theorem provider_is_consulted_at_one_url
  (key : env_var) (p1 p2 : string -> fetch_outcome) (city : city_param) :
  (forall url, openWeatherMapUrl key city = Normal url -> p1 url = p2 url) ->
  serve_logged key p1 city = serve_logged key p2 city
  /\ serve key p1 ApiWeather city = serve key p2 ApiWeather city.
Proof.
  intros Hp.
  destruct (city_to_string city) as [shown|e] eqn:Hs.
  - pose proof (url_of_shown key city shown Hs) as Hu.
    specialize (Hp _ Hu).
    destruct (city_truthy city) eqn:Hc; [destruct (env_truthy key) eqn:Hk|].
    + rewrite (logged_lookup_cases key p1 city shown _ Hc Hk Hs Hu),
        (logged_lookup_cases key p2 city shown _ Hc Hk Hs Hu).
      rewrite (lookup_cases key p1 city _ Hc Hk Hu), (lookup_cases key p2 city _ Hc Hk Hu).
      rewrite Hp. split; reflexivity.
    + rewrite !(logged_keyless_lookup key _ city shown Hs Hc Hk).
      rewrite !(keyless_lookup_refused key _ city shown Hs Hc Hk). split; reflexivity.
    + rewrite !(logged_lookup_without_city key _ city shown Hs Hc).
      rewrite !(lookup_without_city key _ city shown Hs Hc). split; reflexivity.
  - rewrite !(logged_lookup_throws key _ city e Hs).
    rewrite !(lookup_throws key _ city e Hs). split; reflexivity.
Qed.

Lemma provider_is_consulted_at_one_url_witness :
  serve_logged (Some "secret")
    (fun u => if (u =? "https://api.openweathermap.org/data/2.5/weather?q=London&appid=secret&units=metric")%string
              then Resolves (mkResponse 200 (Some london)) else Rejects)
    (Some (QStr "London")) =
  serve_logged (Some "secret") (stub 200 (Some london)) (Some (QStr "London"))
  /\ serve (Some "secret")
       (fun u => if (u =? "https://api.openweathermap.org/data/2.5/weather?q=London&appid=secret&units=metric")%string
                 then Resolves (mkResponse 200 (Some london)) else Rejects)
       ApiWeather (Some (QStr "London")) =
     serve (Some "secret") (stub 200 (Some london)) ApiWeather (Some (QStr "London")).
Proof.
  apply (provider_is_consulted_at_one_url (Some "secret")
           (fun u => if (u =? "https://api.openweathermap.org/data/2.5/weather?q=London&appid=secret&units=metric")%string
                     then Resolves (mkResponse 200 (Some london)) else Rejects)
           (stub 200 (Some london)) (Some (QStr "London"))).
  intros url Hu. injection Hu as <-. reflexivity.
Defined.

(** X3. A [city] whose string conversion throws (an object with an own
    [toString] property, or an array that holds one) ends the handler on
    line 35, before either guard and outside the [try]: the error leaves the
    handler, and no reply, no console entry and no outbound call is made,
    whatever the key and the provider are. *)
Theorem unprintable_city_throws_uncaught
  (key : env_var) (provider : string -> fetch_outcome) (city : city_param)
  (e : js_error) :
  city_to_string city = Throw e ->
  serve key provider ApiWeather city = (Throw e, mkWorld 200 [] [])
  /\ serve_logged key provider city = (Throw e, mkTraced (mkWorld 200 [] []) []).
Proof.
  intros H. split.
  - apply (lookup_throws key provider city e H).
  - apply (logged_lookup_throws key provider city e H).
Qed.

Lemma unprintable_city_throws_uncaught_witness :
  serve None (stub 200 (Some london)) ApiWeather
    (Some (QArr [QStr "Oslo"; QObj [("toString", QStr "x")]])) =
  (Throw TypeError, mkWorld 200 [] [])
  /\ serve_logged None (stub 200 (Some london))
       (Some (QArr [QStr "Oslo"; QObj [("toString", QStr "x")]])) =
     (Throw TypeError, mkTraced (mkWorld 200 [] []) []).
Proof.
  apply (unprintable_city_throws_uncaught None (stub 200 (Some london))
           (Some (QArr [QStr "Oslo"; QObj [("toString", QStr "x")]])) TypeError).
  reflexivity.
Defined.

(** ** The console of a lookup *)



(** X5. For a city string without an ampersand the entry written before the
    call shows the base and the whole city, and ["&appid=..."] in place of
    the key and what follows it. *)
Theorem fetch_log_shows_plain_city
  (key : env_var) (provider : string -> fetch_outcome) (s : string) :
  s <> "" ->
  env_truthy key = true ->
  occurs "&"%char s = false ->
  nth_error (console (snd (serve_logged key provider (Some (QStr s))))) 1 =
  Some (LogLevel,
        [str ("Fetching from external API: "
              ++ "https://api.openweathermap.org/data/2.5/weather?q=" ++ s
              ++ "&appid=...")]).
Proof.
  intros Hs Hk Hamp.
  assert (Hc : city_truthy (Some (QStr s)) = true) by (apply empty_string_eqb; exact Hs).
  destruct (logged_console_head key provider (Some (QStr s)) s Hc Hk eq_refl) as [rest ->].
  rewrite url_parts.
  rewrite split_head_plain.
  - reflexivity.
  - rewrite occurs_append, Hamp. reflexivity.
Qed.

Lemma fetch_log_shows_plain_city_witness :
  nth_error (console (snd (serve_logged (Some "secret") unreachable
                             (Some (QStr "New York"))))) 1 =
  Some (LogLevel,
        [str "Fetching from external API: https://api.openweathermap.org/data/2.5/weather?q=New York&appid=..."]).
Proof.
  apply (fetch_log_shows_plain_city (Some "secret") unreachable "New York").
  - discriminate.
  - reflexivity.
  - reflexivity.
Defined.

(** X6. When the call went out and it rejects, or the body of its response
    does not parse, the reply is the same 500; the console holds the request
    entry, the URL entry and one [console.error] entry with the caught error,
    which tells the two cases apart.  When the body does not parse, the
    provider's status is in neither the reply nor the console. *)
Theorem transport_failure_trace
  (key : env_var) (provider : string -> fetch_outcome) (city : city_param)
  (shown url : string) :
  city_truthy city = true ->
  env_truthy key = true ->
  city_to_string city = Normal shown ->
  openWeatherMapUrl key city = Normal url ->
  provider url = Rejects \/ (exists st, provider url = Resolves (mkResponse st None)) ->
  serve_logged key provider city =
  (Normal tt,
   mkTraced
     (mkWorld 500 [(500, error_body "Failed to fetch weather data.")] [url])
     [(LogLevel, [str ("Received request for city: " ++ shown)]);
      (LogLevel,
       [str ("Fetching from external API: " ++ split_head url "&appid=" ++ "&appid=...")]);
      (ErrorLevel,
       [str "Backend failed to fetch weather:";
        AErr (match provider url with
              | Rejects => FetchError
              | Resolves _ => SyntaxError
              end)])]).
Proof.
  intros Hc Hk Hs Hu Hfail.
  rewrite (logged_lookup_cases key provider city shown url Hc Hk Hs Hu).
  destruct Hfail as [-> | [st ->]]; reflexivity.
Qed.

Lemma transport_failure_trace_witness :
  serve_logged (Some "secret") (stub 502 None) (Some (QStr "London")) =
  (Normal tt,
   mkTraced
     (mkWorld 500 [(500, error_body "Failed to fetch weather data.")]
        ["https://api.openweathermap.org/data/2.5/weather?q=London&appid=secret&units=metric"])
     [(LogLevel, [str "Received request for city: London"]);
      (LogLevel, [str "Fetching from external API: https://api.openweathermap.org/data/2.5/weather?q=London&appid=..."]);
      (ErrorLevel, [str "Backend failed to fetch weather:"; AErr SyntaxError])]).
Proof.
  apply (transport_failure_trace (Some "secret") (stub 502 None) (Some (QStr "London"))
           "London"
           "https://api.openweathermap.org/data/2.5/weather?q=London&appid=secret&units=metric").
  - reflexivity.
  - reflexivity.
  - reflexivity.
  - reflexivity.
  - right. exists 502. reflexivity.
Defined.

(** X7. When the call went out and is answered with a status outside 2xx
    and a body on which [message] can be read, the console holds, after the
    request entry and the URL entry, the status line and one [console.error]
    entry that carries the provider's [message] when it is truthy and
    "Unknown error" otherwise (where the reply then says
    "Error fetching weather data from external API"). *)
Theorem provider_error_trace
  (key : env_var) (provider : string -> fetch_outcome) (city : city_param)
  (shown url : string) (st : Z) (data message : value) :
  city_truthy city = true ->
  env_truthy key = true ->
  city_to_string city = Normal shown ->
  openWeatherMapUrl key city = Normal url ->
  provider url = Resolves (mkResponse st (Some data)) ->
  ~ 200 <= st < 300 ->
  get_field data "message" = Normal message ->
  console (snd (serve_logged key provider city)) =
  [(LogLevel, [str ("Received request for city: " ++ shown)]);
   (LogLevel,
    [str ("Fetching from external API: " ++ split_head url "&appid=" ++ "&appid=...")]);
   (LogLevel, [str ("External API response status: " ++ integer_to_string st)]);
   (ErrorLevel,
    [str "External API error:";
     AVal (if truthy message then message else VStr "Unknown error")])].
Proof.
  intros Hc Hk Hs Hu Hp Hst Hm.
  rewrite (logged_lookup_cases key provider city shown url Hc Hk Hs Hu).
  rewrite Hp. cbn [json_body status].
  destruct (ok (mkResponse st (Some data))) eqn:Hok.
  - apply ok_range in Hok. contradiction.
  - rewrite Hm. reflexivity.
Qed.

Lemma provider_error_trace_witness :
  console (snd (serve_logged (Some "secret")
                  (stub 401 (Some (VObj [("cod", VNum (S754_finite false 401 0))])))
                  (Some (QStr "London")))) =
  [(LogLevel, [str "Received request for city: London"]);
   (LogLevel, [str "Fetching from external API: https://api.openweathermap.org/data/2.5/weather?q=London&appid=..."]);
   (LogLevel, [str "External API response status: 401"]);
   (ErrorLevel, [str "External API error:"; AVal (VStr "Unknown error")])].
Proof.
  apply (provider_error_trace (Some "secret")
           (stub 401 (Some (VObj [("cod", VNum (S754_finite false 401 0))])))
           (Some (QStr "London")) "London"
           "https://api.openweathermap.org/data/2.5/weather?q=London&appid=secret&units=metric"
           401
           (VObj [("cod", VNum (S754_finite false 401 0))]) VUndefined).
  - reflexivity.
  - reflexivity.
  - reflexivity.
  - reflexivity.
  - reflexivity.
  - lia.
  - reflexivity.
Defined.

(** X8. A lookup for a [city] whose string conversion does not throw writes
    exactly one [console.error] entry when a city was given and the reply is
    not the 200 summary, and none otherwise: a 200 reply leaves no error
    entry, and the 400 for a missing city is written with [console.log]. *)
Theorem one_error_entry_per_failed_lookup
  (key : env_var) (provider : string -> fetch_outcome) (city : city_param)
  (shown : string) :
  city_to_string city = Normal shown ->
  length (filter is_error_entry (console (snd (serve_logged key provider city)))) =
  if city_truthy city
     && negb (existsb (fun reply => fst reply =? 200)
                (sent (effects (snd (serve_logged key provider city)))))
  then 1%nat else 0%nat.
Proof.
  intros Hs.
  destruct (city_truthy city) eqn:Hc; [destruct (env_truthy key) eqn:Hk|].
  - rewrite (logged_lookup_cases key provider city shown _ Hc Hk Hs
               (url_of_shown key city shown Hs)).
    destruct (provider _) as [|r]; [reflexivity|].
    destruct (json_body r) as [data|]; [|reflexivity].
    destruct (ok r) eqn:Hok.
    + destruct (weatherInfo data); reflexivity.
    + destruct (get_field data "message"); [|reflexivity].
      cbn. rewrite (not_ok_not_200 r Hok). reflexivity.
  - rewrite (logged_keyless_lookup key provider city shown Hs Hc Hk). reflexivity.
  - rewrite (logged_lookup_without_city key provider city shown Hs Hc). reflexivity.
Qed.

Lemma one_error_entry_per_failed_lookup_witness :
  length (filter is_error_entry
            (console (snd (serve_logged (Some "secret") (stub 200 (Some VNull))
                             (Some (QStr "London")))))) =
  if city_truthy (Some (QStr "London"))
     && negb (existsb (fun reply => fst reply =? 200)
                (sent (effects (snd (serve_logged (Some "secret") (stub 200 (Some VNull))
                                       (Some (QStr "London")))))))
  then 1%nat else 0%nat.
Proof.
  apply (one_error_entry_per_failed_lookup (Some "secret") (stub 200 (Some VNull))
           (Some (QStr "London")) "London").
  reflexivity.
Defined.

(** ** Start-up *)

(** X9. With a key set and not empty, loading the module writes two
    [console.log] entries, and of the key it shows a prefix of at most five
    characters followed by ["..."]: the first five when the key is longer,
    the whole key when it is not. *)
Theorem key_banner_shows_five_chars (env_port : env_var) (k : string) :
  k <> "" ->
  exists shown hidden,
    k = shown ++ hidden
    /\ String.length shown = Nat.min 5 (String.length k)
    /\ at_load (server_js env_port (Some k)) =
       [(LogLevel, [str "Backend starting..."]);
        (LogLevel, [str "OpenWeatherMap API Key loaded (first 5 chars):";
                    str (shown ++ "...")])].
Proof.
  intros Hk.
  destruct (substring_prefix 5 k) as (hidden & Hsplit & Hlen).
  exists (substring 0 5 k), hidden. repeat split; [exact Hsplit | exact Hlen |].
  unfold server_js, key_check. cbn [at_load env_truthy env_to_string].
  rewrite (empty_string_eqb k Hk). reflexivity.
Qed.

Lemma key_banner_shows_five_chars_witness :
  exists shown hidden,
    "0123456789abcdef" = shown ++ hidden
    /\ String.length shown = Nat.min 5 (String.length "0123456789abcdef")
    /\ at_load (server_js None (Some "0123456789abcdef")) =
       [(LogLevel, [str "Backend starting..."]);
        (LogLevel, [str "OpenWeatherMap API Key loaded (first 5 chars):";
                    str (shown ++ "...")])].
Proof.
  apply (key_banner_shows_five_chars None "0123456789abcdef").
  discriminate.
Defined.

(** X10. The check at load time and the check in the handler agree: the
    entry "ERROR: OPENWEATHER_API_KEY is not set! Weather fetching will fail."
    is written at start-up exactly when every lookup that names a city whose
    string conversion does not throw is answered 500
    "Server is not configured with the API key." without a call to the
    provider. *)
Theorem startup_error_iff_lookups_refused (env_port key : env_var) :
  In (ErrorLevel,
      [str "ERROR: OPENWEATHER_API_KEY is not set! Weather fetching will fail."])
     (at_load (server_js env_port key))
  <->
  (forall (provider : string -> fetch_outcome) (city : city_param) (shown : string),
     city_truthy city = true ->
     city_to_string city = Normal shown ->
     serve key provider ApiWeather city =
     (Normal tt,
      mkWorld 500 [(500, error_body "Server is not configured with the API key.")] [])).
Proof.
  unfold server_js, key_check. cbn [at_load].
  destruct (env_truthy key) eqn:Hk; cbn [negb]; split.
  - intros [H | [H | []]]; discriminate H.
  - intros H. specialize (H unreachable (Some (QStr "London")) "London" eq_refl eq_refl).
    rewrite (lookup_cases key unreachable (Some (QStr "London")) _ eq_refl Hk
               (url_of_shown key (Some (QStr "London")) "London" eq_refl)) in H.
    discriminate H.
  - intros _ provider city shown Hc Hs.
    apply (keyless_lookup_refused key provider city shown Hs Hc Hk).
  - intros _. right. left. reflexivity.
Qed.

(** X11. The server listens on host 0.0.0.0, whether or not a key is set.
    Its port is the PORT variable as the string it is when that is set and
    not empty, and the number 8080 when it is unset or empty; the two
    entries written once it listens show that same port. *)
Theorem port_falls_back_to_8080 (env_port key : env_var) :
  listen_host (server_js env_port key) = "0.0.0.0"
  /\ listen_port (server_js env_port key) =
     (if env_truthy env_port then PortStr (env_to_string env_port) else PortNum 8080)
  /\ on_listening (server_js env_port key) =
     [(LogLevel,
       [str ("Backend server listening on port "
             ++ (if env_truthy env_port then env_to_string env_port else "8080"))]);
      (LogLevel,
       [str ("Access backend via: http://localhost:"
             ++ (if env_truthy env_port then env_to_string env_port else "8080")
             ++ "/api/weather?city=London (for local testing)")])].
Proof.
  destruct env_port as [s|]; [|repeat split].
  unfold server_js, PORT. cbn [listen_host listen_port on_listening env_truthy env_to_string].
  destruct (s =? "")%string; repeat split.
Qed.
